(** * International Standard Atmosphere model: [environnement/atmosphere.py]

    A shallow embedding of the class [AtmosphereISA] and the properties its
    specification states about it.

    Numbers.  The methods receive a Python number and compute with binary64
    floats.  A float is modelled here by the real number it denotes, or by
    [NaN]; arithmetic is exact real arithmetic (rounding, signed zeros and
    the two infinities are not modelled).  [np.exp] is the real exponential
    and [x ** y] is [Rpower x y] = exp (y * ln x), which is what the float
    power computes for a positive base; lemma [power_base_pos] shows that the
    base is positive on every path that reaches a power.  The two divisors,
    [_Tb] and [8.314 * _Lb] in the branch where [_Lb] is not zero, are never
    zero, so no division raises.

    Limits of the real-number embedding.  Overflow is not represented: far
    below sea level (around -1e63 m) the float power is out of range and
    raises [OverflowError], while [Rpower] always returns.  Rounding is not
    represented either: altitudes a fraction of a nanometre apart can give
    the same float, and two expressions that are equal as reals can differ in
    the last bit.  The theorems about returned values therefore bound the
    altitude from below, and those that compare two expressions or two
    altitudes are stated with a tolerance or a separation.  Module [Binary64]
    gives the methods over IEEE doubles, and module [Rounding] the effects of
    rounding that can be computed.

    Exceptions.  A method either returns a value or raises; [result] records
    which.  Subscripting a list with [None], which is what [get_level] yields
    when no branch matches, raises [TypeError]. *)

From Stdlib Require Import Reals Lra Lia List String ZArith.
From Stdlib Require Floats.
Import ListNotations.

Open Scope R_scope.

(* ================================================================== *)
(** ** Python values, exceptions and list subscripting *)

Module Py.

Inductive exn : Type :=
| TypeError
| IndexError
| OverflowError
| UserError (name : string).

Inductive result (A : Type) : Type :=
| Ok (a : A)
| Raise (e : exn).

Arguments Ok {A} a.
Arguments Raise {A} e.

Definition bind {A B : Type} (m : result A) (k : A -> result B) : result B :=
  match m with
  | Ok a => k a
  | Raise e => Raise e
  end.

(** A float: the real it denotes, or not-a-number. *)
Inductive float : Type :=
| Num (x : R)
| NaN.

Definition lift1 (f : R -> R) (a : float) : float :=
  match a with
  | Num x => Num (f x)
  | NaN => NaN
  end.

Definition lift2 (f : R -> R -> R) (a b : float) : float :=
  match a, b with
  | Num x, Num y => Num (f x y)
  | _, _ => NaN
  end.

Definition fadd := lift2 Rplus.
Definition fsub := lift2 Rminus.
Definition fmul := lift2 Rmult.
Definition fdiv := lift2 Rdiv.
Definition fneg := lift1 Ropp.
Definition fexp := lift1 exp.     (* np.exp *)
Definition fpow := lift2 Rpower.  (* ** *)

(** [a < b]: every comparison with [NaN] is false. *)
Definition fltb (a b : float) : bool :=
  match a, b with
  | Num x, Num y => if Rlt_dec x y then true else false
  | _, _ => false
  end.

(** [a == b] *)
Definition feqb (a b : float) : bool :=
  match a, b with
  | Num x, Num y => if Req_dec_T x y then true else false
  | _, _ => false
  end.

(** [l[i]] where [i] is what [get_level] returned: an index or [None]. *)
Definition subscript {A : Type} (l : list A) (i : option nat) : result A :=
  match i with
  | None => Raise TypeError
  | Some n =>
      match nth_error l n with
      | Some v => Ok v
      | None => Raise IndexError
      end
  end.

End Py.

Import Py.

Coercion Num : R >-> float.

Declare Scope py_scope.
Delimit Scope py_scope with py.
Bind Scope py_scope with float.

Notation "a + b" := (fadd a b) : py_scope.
Notation "a - b" := (fsub a b) : py_scope.
Notation "a * b" := (fmul a b) : py_scope.
Notation "a / b" := (fdiv a b) : py_scope.
Notation "- a" := (fneg a) : py_scope.
Notation "a ** b" := (fpow a b) (at level 30, right associativity) : py_scope.
Notation "a <? b" := (fltb a b) (at level 70, no associativity) : py_scope.
Notation "a =? b" := (feqb a b) (at level 70, no associativity) : py_scope.

Notation "x <- m ;; k" := (bind m (fun x => k))
  (at level 61, m at next level, right associativity).
Notation "l .[ i ]" := (subscript l i) (at level 1, format "l .[ i ]").

(* ================================================================== *)
(** ** The class [AtmosphereISA] *)

Module AtmosphereISA.

(** The list literals of the methods.  Each method writes out the lists it
    subscripts; [Tb_list] and [hb_list] appear in all three, [Lb_list] in
    [get_pressure] and [get_density], the others in one method each. *)
Definition Tb_list : list R := [288.15; 216.65; 216.65; 228.65; 270.65; 270.65].
Definition a_list  : list R := [-0.0065; 0; 0.001; 0.0028; 0; -0.0028].
Definition hb_list : list R := [0; 11000; 20000; 32000; 47000; 51000].
Definition Pb_list : list R := [101325.00; 22632.06; 5474.89; 868.02; 110.91; 66.94].
Definition Lb_list : list R := [0.0065; 0; -0.001; -0.0028; 0; 0.0028].
Definition Db_list : list R := [1.225; 0.36391; 0.08803; 0.01322; 0.00143; 0.00086].

(** [get_level]: a chain of [if]/[elif] with no final [else]; when no test
    succeeds the method falls off its end and returns [None]. *)
Definition get_level (height : float) : option nat :=
  if (height <? 11000)%py then Some 0%nat        (* Troposphere *)
  else if (height <? 20000)%py then Some 1%nat   (* Tropopause *)
  else if (height <? 32000)%py then Some 2%nat   (* Stratosphere *)
  else if (height <? 47000)%py then Some 3%nat   (* Stratopause *)
  else if (height <? 51000)%py then Some 4%nat   (* Mesosphere *)
  else if (height <? 71000)%py then Some 5%nat   (* Mesopause *)
  else None.

Definition get_temperature (height : float) : result float :=
  let _level := get_level height in
  _Tb <- Tb_list.[_level] ;;
  _a <- a_list.[_level] ;;
  _hb <- hb_list.[_level] ;;
  Ok (_Tb + _a * (height - _hb))%py.

Definition get_pressure (height : float) : result float :=
  let _level := get_level height in
  _Pb <- Pb_list.[_level] ;;
  _Tb <- Tb_list.[_level] ;;
  _Lb <- Lb_list.[_level] ;;
  _hb <- hb_list.[_level] ;;
  if (_Lb =? 0)%py then
    Ok (_Pb * fexp (- 9.81 * 0.028964 * (height - _hb) / (8.314 * _Tb)))%py
  else
    Ok (_Pb * (1 - _Lb * (height - _hb) / _Tb) ** (9.81 * 0.028964 / (8.314 * _Lb)))%py.

Definition get_density (height : float) : result float :=
  let _level := get_level height in
  _Db <- Db_list.[_level] ;;
  _Tb <- Tb_list.[_level] ;;
  _Lb <- Lb_list.[_level] ;;
  _hb <- hb_list.[_level] ;;
  if (_Lb =? 0)%py then
    Ok (_Db * fexp (- 9.81 * 0.028964 * (height - _hb) / (8.314 * _Tb)))%py
  else
    Ok (_Db * (1 - _Lb * (height - _hb) / _Tb) ** (9.81 * 0.028964 / (8.314 * _Lb) - 1))%py.

End AtmosphereISA.

Import AtmosphereISA.

(* ================================================================== *)
(** ** The script under [if __name__ == '__main__']

    The script samples the three evaluators on [np.arange(0, 40001, 100)] with
    one list comprehension per curve and hands the lists to matplotlib.  The
    sampling is modelled; the plotting calls are not. *)

Module Script.

(** [np.arange(start, stop, step)] on integers with a positive step: the
    values [start + k*step] below [stop], ceil((stop - start)/step) of them. *)
Definition arange (start stop step : Z) : list Z :=
  map (fun k : nat => (start + Z.of_nat k * step)%Z)
      (seq 0 (Z.to_nat ((stop - start + step - 1) / step))).

(** [[f(x) for x in l]]: the calls are made from left to right and the first
    exception ends the comprehension. *)
Fixpoint comprehension {A B : Type} (f : A -> result B) (l : list A)
  : result (list B) :=
  match l with
  | [] => Ok []
  | x :: l' =>
      y <- f x ;;
      ys <- comprehension f l' ;;
      Ok (y :: ys)
  end.

(** An integer sample, as the methods see it. *)
Definition altitude (alt : Z) : float := Num (IZR alt).

(** The four data lists the script builds before plotting. *)
Definition main : result (list Z * list float * list float * list float) :=
  let altitude_data := arange 0 40001 100 in
  temperature_data <- comprehension (fun alt => get_temperature (altitude alt)) altitude_data ;;
  pressure_data <- comprehension (fun alt => get_pressure (altitude alt)) altitude_data ;;
  density_data <- comprehension (fun alt => get_density (altitude alt)) altitude_data ;;
  Ok (altitude_data, temperature_data, pressure_data, density_data).

End Script.

Import Script.

(* ================================================================== *)
(** ** The methods over binary64

    The same methods with the arithmetic of IEEE doubles, which is computed
    here operation by operation: comparisons, [+], [-], [*] and [/] are the
    primitive ones.  [np.exp] and the float power are library functions and
    are taken as parameters; the power may raise, as Python's does with
    [OverflowError] when its result is out of range.  This module shows where
    rounding separates the program from the real-number embedding above. *)

Module Binary64.

Import PrimFloat.
#[local] Set Warnings "-inexact-float".

Definition Tb_list : list float := [288.15; 216.65; 216.65; 228.65; 270.65; 270.65]%float.
Definition a_list  : list float := [-0.0065; 0; 0.001; 0.0028; 0; -0.0028]%float.
Definition hb_list : list float := [0; 11000; 20000; 32000; 47000; 51000]%float.
Definition Pb_list : list float := [101325.00; 22632.06; 5474.89; 868.02; 110.91; 66.94]%float.
Definition Lb_list : list float := [0.0065; 0; -0.001; -0.0028; 0; 0.0028]%float.
Definition Db_list : list float := [1.225; 0.36391; 0.08803; 0.01322; 0.00143; 0.00086]%float.

Definition get_level (height : float) : option nat :=
  if (height <? 11000)%float then Some 0%nat
  else if (height <? 20000)%float then Some 1%nat
  else if (height <? 32000)%float then Some 2%nat
  else if (height <? 47000)%float then Some 3%nat
  else if (height <? 51000)%float then Some 4%nat
  else if (height <? 71000)%float then Some 5%nat
  else None.

Definition get_temperature (height : float) : result float :=
  let _level := get_level height in
  _Tb <- Tb_list.[_level] ;;
  _a <- a_list.[_level] ;;
  _hb <- hb_list.[_level] ;;
  Ok (_Tb + _a * (height - _hb))%float.

(** The base of the power in [get_pressure] and [get_density]:
    [1 - _Lb * (height - _hb) / _Tb]. *)
Definition power_base (_Lb height _hb _Tb : float) : float :=
  (1 - _Lb * (height - _hb) / _Tb)%float.

Section Libm.

Variable np_exp : float -> float.
Variable float_pow : float -> float -> result float.

Definition get_pressure (height : float) : result float :=
  let _level := get_level height in
  _Pb <- Pb_list.[_level] ;;
  _Tb <- Tb_list.[_level] ;;
  _Lb <- Lb_list.[_level] ;;
  _hb <- hb_list.[_level] ;;
  if (_Lb =? 0)%float then
    Ok (_Pb * np_exp (-9.81 * 0.028964 * (height - _hb) / (8.314 * _Tb)))%float
  else
    p <- float_pow (power_base _Lb height _hb _Tb)
                   (9.81 * 0.028964 / (8.314 * _Lb))%float ;;
    Ok (_Pb * p)%float.

Definition get_density (height : float) : result float :=
  let _level := get_level height in
  _Db <- Db_list.[_level] ;;
  _Tb <- Tb_list.[_level] ;;
  _Lb <- Lb_list.[_level] ;;
  _hb <- hb_list.[_level] ;;
  if (_Lb =? 0)%float then
    Ok (_Db * np_exp (-9.81 * 0.028964 * (height - _hb) / (8.314 * _Tb)))%float
  else
    p <- float_pow (power_base _Lb height _hb _Tb)
                   (9.81 * 0.028964 / (8.314 * _Lb) - 1)%float ;;
    Ok (_Db * p)%float.

End Libm.

End Binary64.

(* ================================================================== *)
(** ** The data model and formulas of the specification

    The specification describes the constants as one ordered table of layer
    records and gives each evaluator as a formula over a record.  The
    definitions of this module follow its words; the theorems below compare
    them with the methods above. *)

Module Spec.

Record Layer : Type := mkLayer {
  base_altitude : R;      (* m *)
  base_temperature : R;   (* K *)
  lapse_rate : R;         (* K/m, signed: the slope of temperature *)
  base_pressure : R;      (* Pa *)
  base_density : R        (* kg/m3 *)
}.

(** Layer [i] gathers the [i]-th entries of the parallel lists; its
    [lapse_rate] is the slope used by the temperature formula. *)
Definition layer (i : nat) : Layer :=
  mkLayer (nth i hb_list 0) (nth i Tb_list 0) (nth i a_list 0)
          (nth i Pb_list 0) (nth i Db_list 0).

(** Upper bounds of the six partitions. *)
Definition breakpoints : list R := [11000; 20000; 32000; 47000; 51000; 71000].

Definition upper_bound (i : nat) : R := nth i breakpoints 0.


Definition g : R := 9.81.
Definition M : R := 0.028964.
Definition Rgas : R := 8.314.

Definition isothermal (l : Layer) : Prop := lapse_rate l = 0.

(** [T = T_b + lapse_rate * (h - base_altitude)] *)
Definition temperature (l : Layer) (h : R) : R :=
  base_temperature l + lapse_rate l * (h - base_altitude l).

(** [exp(-g*M*(h - base_altitude) / (R * T_b))] *)
Definition isothermal_factor (l : Layer) (h : R) : R :=
  exp (- g * M * (h - base_altitude l) / (Rgas * base_temperature l)).

(** [(1 - L*(h - base_altitude)/T_b) ^ e], for a lapse constant [L] and an
    exponent [e] that the caller chooses. *)
Definition polytropic_factor (l : Layer) (L e h : R) : R :=
  Rpower (1 - L * (h - base_altitude l) / base_temperature l) e.

(** The polytropic formulas as the specification words them, with the
    record's [lapse_rate] as the lapse constant. *)
Definition polytropic_pressure (l : Layer) (h : R) : R :=
  base_pressure l
  * polytropic_factor l (lapse_rate l) (g * M / (Rgas * lapse_rate l)) h.

Definition polytropic_density (l : Layer) (h : R) : R :=
  base_density l
  * polytropic_factor l (lapse_rate l) (g * M / (Rgas * lapse_rate l) - 1) h.

Definition isothermal_pressure (l : Layer) (h : R) : R :=
  base_pressure l * isothermal_factor l h.

Definition isothermal_density (l : Layer) (h : R) : R :=
  base_density l * isothermal_factor l h.

(** The error conditions the specification names. *)
Definition OutOfRangeAltitude : exn := UserError "OutOfRangeAltitude".
Definition InvalidInput : exn := UserError "InvalidInput".

(** Two values agree within a tolerance. *)
Definition within (tol x y : R) : Prop := Rabs (x - y) <= tol.

(** The tolerance the specification gives for floating-point comparison. *)
Definition tolerance : R := 1e-6.

End Spec.

Import Spec.

(* ================================================================== *)
(** ** The formulas of the methods, layer by layer, and the properties
       stated about them *)

(** The same power law with the lapse constant negated: the constant the
    methods read from [Lb_list]. *)
Definition barometric_pressure (l : Layer) (h : R) : R :=
  base_pressure l
  * polytropic_factor l (- lapse_rate l) (g * M / (Rgas * (- lapse_rate l))) h.

Definition barometric_density (l : Layer) (h : R) : R :=
  base_density l
  * polytropic_factor l (- lapse_rate l) (g * M / (Rgas * (- lapse_rate l)) - 1) h.

(** An altitude outside every partition: a number at or above 71000, or
    not-a-number. *)
Definition unclassified (height : float) : Prop :=
  height = NaN \/ exists h : R, height = Num h /\ 71000 <= h.

(** Each evaluator signals [OutOfRangeAltitude] at an altitude. *)
Definition signals_out_of_range (height : float) : Prop :=
  get_temperature height = Raise OutOfRangeAltitude
  /\ get_pressure height = Raise OutOfRangeAltitude
  /\ get_density height = Raise OutOfRangeAltitude.

(** A call returns a number within the tolerance of a reference value. *)
Definition returns_within (m : result float) (ref : R) : Prop :=
  exists v : R, m = Ok (Num v) /\ within tolerance v ref.

(** The polytropic branch as the specification words it: both evaluators
    apply the power law with the record's [lapse_rate]. *)
Definition polytropic_as_worded (h : R) (i : nat) : Prop :=
  get_pressure h = Ok (Num (polytropic_pressure (layer i) h))
  /\ get_density h = Ok (Num (polytropic_density (layer i) h)).


Definition pressure_in_layer (i : nat) (h : R) : R :=
  if Req_dec_T (nth i Lb_list 0) 0
  then isothermal_pressure (layer i) h
  else base_pressure (layer i)
       * polytropic_factor (layer i) (nth i Lb_list 0)
           (g * M / (Rgas * nth i Lb_list 0)) h.

Definition density_in_layer (i : nat) (h : R) : R :=
  if Req_dec_T (nth i Lb_list 0) 0
  then isothermal_density (layer i) h
  else base_density (layer i)
       * polytropic_factor (layer i) (nth i Lb_list 0)
           (g * M / (Rgas * nth i Lb_list 0) - 1) h.


(** The lowest altitude of the theorems that reach below sea level: the
    depth of the deepest ocean trench, -11000 m.  The troposphere formulas
    are extrapolated down to it without any overflow. *)
Definition floor_altitude : R := -11000.

(** Pressure and density both strictly decrease from [h1] to [h2]. *)
Definition decreases (h1 h2 : R) : Prop :=
  exists P1 P2 D1 D2 : R,
    get_pressure h1 = Ok (Num P1) /\ get_pressure h2 = Ok (Num P2)
    /\ get_density h1 = Ok (Num D1) /\ get_density h2 = Ok (Num D2)
    /\ P1 > P2 /\ D1 > D2.

(* ================================================================== *)
(** ** Reduction lemmas for the Python fragment *)

Lemma fltb_Num (x y : R) : (Num x <? Num y)%py = true <-> x < y.
Proof.
  unfold fltb. destruct (Rlt_dec x y); split; intros; auto; discriminate.
Qed.

Lemma fltb_Num_false (x y : R) : (Num x <? Num y)%py = false <-> y <= x.
Proof.
  unfold fltb. destruct (Rlt_dec x y); split; intros; auto; try discriminate; lra.
Qed.

Lemma fltb_NaN (b : float) : (NaN <? b)%py = false.
Proof. reflexivity. Qed.

Lemma feqb_Num (x y : R) : (Num x =? Num y)%py = true <-> x = y.
Proof.
  unfold feqb. destruct (Req_dec_T x y); split; intros; auto; discriminate.
Qed.

Lemma feqb_Num_false (x y : R) : (Num x =? Num y)%py = false <-> x <> y.
Proof.
  unfold feqb. destruct (Req_dec_T x y); split; intros; auto; try discriminate.
  contradiction.
Qed.

Lemma Ok_inj {A : Type} (a b : A) : Ok a = Ok b -> a = b.
Proof. now intros [= ->]. Qed.

Lemma Num_inj (x y : R) : Num x = Num y -> x = y.
Proof. now intros [= ->]. Qed.

Lemma within_refl (tol x : R) : 0 <= tol -> within tol x x.
Proof.
  intros Htol. unfold within. rewrite Rminus_diag, Rabs_R0. exact Htol.
Qed.

(** Unfolds the methods at a known level, leaving real arithmetic. *)
Ltac eval_method :=
  cbv [get_temperature get_pressure get_density];
  repeat match goal with
         | H : get_level _ = _ |- _ => rewrite H
         end;
  cbv [subscript nth_error bind Tb_list a_list hb_list Pb_list Lb_list Db_list];
  cbv [feqb];
  repeat match goal with
         | |- context [Req_dec_T ?a ?b] =>
             destruct (Req_dec_T a b); [try (exfalso; lra) | try (exfalso; lra)]
         end;
  cbv [fadd fsub fmul fdiv fneg fexp fpow lift1 lift2].

(** Reduces [nth] on the constant lists and the record projections. *)
Ltac eval_tables :=
  cbv [temperature isothermal_factor polytropic_factor polytropic_pressure
       polytropic_density isothermal_pressure isothermal_density
       barometric_pressure barometric_density isothermal
       layer upper_bound breakpoints g M Rgas
       base_altitude base_temperature lapse_rate base_pressure base_density
       nth Tb_list a_list hb_list Pb_list Lb_list Db_list] in *.

(* ================================================================== *)
(** ** The layer classifier *)

(** The six partitions and what lies beyond them, one disjunct per branch. *)
Lemma get_level_cases (h : R) :
  (h < 11000 /\ get_level h = Some 0%nat) \/
  (11000 <= h < 20000 /\ get_level h = Some 1%nat) \/
  (20000 <= h < 32000 /\ get_level h = Some 2%nat) \/
  (32000 <= h < 47000 /\ get_level h = Some 3%nat) \/
  (47000 <= h < 51000 /\ get_level h = Some 4%nat) \/
  (51000 <= h < 71000 /\ get_level h = Some 5%nat) \/
  (71000 <= h /\ get_level h = None).
Proof.
  unfold get_level, fltb.
  repeat match goal with
         | |- context [Rlt_dec ?a ?b] => destruct (Rlt_dec a b)
         end;
  try lra;
  repeat match goal with
         | |- _ /\ _ => split; [lra | reflexivity]
         | |- (_ /\ _) \/ _ => (left; split; [lra | reflexivity]) || right
         end.
Qed.

Lemma get_level_NaN : get_level NaN = None.
Proof. reflexivity. Qed.

Lemma get_level_lt_6 (height : float) (i : nat) :
  get_level height = Some i -> (i < 6)%nat.
Proof.
  unfold get_level.
  repeat match goal with
         | |- context [fltb ?a ?b] => destruct (fltb a b)
         end;
  intros [= <-]; lia.
Qed.

(** Only a number below 71000 has a level. *)
Lemma get_level_Some_inv (height : float) (i : nat) :
  get_level height = Some i -> exists h : R, height = Num h /\ h < 71000.
Proof.
  destruct height as [h|]; [|discriminate].
  intros E. exists h. split; [reflexivity|].
  destruct (get_level_cases h) as [[? ?]|[[? ?]|[[? ?]|[[? ?]|[[? ?]|[[? ?]|[? E']]]]]]];
    try lra.
  congruence.
Qed.

Ltac split_level h :=
  destruct (get_level_cases h)
    as [[? ?]|[[? ?]|[[? ?]|[[? ?]|[[? ?]|[[? ?]|[? ?]]]]]]].

Ltac case_index i :=
  destruct i as [|i]; [|
  destruct i as [|i]; [|
  destruct i as [|i]; [|
  destruct i as [|i]; [|
  destruct i as [|i]; [|
  destruct i as [|i]; [| exfalso; lia ]]]]]].

(* ================================================================== *)
(** ** The constant lists *)

(** [Lb_list] holds the entries of [a_list] with the sign changed. *)
Lemma Lb_list_opp_a_list (i : nat) : nth i Lb_list 0 = - nth i a_list 0.
Proof.
  do 6 (destruct i as [|i]; [cbv [nth Lb_list a_list]; lra|]).
  destruct i; cbv [nth Lb_list a_list]; lra.
Qed.

Lemma lapse_rate_layer (i : nat) : lapse_rate (layer i) = nth i a_list 0.
Proof. reflexivity. Qed.

Lemma Tb_list_pos (i : nat) : (i < 6)%nat -> 0 < nth i Tb_list 0.
Proof. intros Hi. case_index i; cbv [nth Tb_list]; lra. Qed.

(** Neither divisor of the methods is zero. *)
Lemma divisors_nonzero (i : nat) :
  (i < 6)%nat ->
  8.314 * nth i Tb_list 0 <> 0
  /\ nth i Tb_list 0 <> 0
  /\ (nth i Lb_list 0 <> 0 -> 8.314 * nth i Lb_list 0 <> 0).
Proof.
  intros Hi. pose proof (Tb_list_pos i Hi). repeat split; try lra.
Qed.

(** The isothermal layers are the tropopause and the mesosphere. *)
Lemma isothermal_iff (i : nat) :
  (i < 6)%nat -> (isothermal (layer i) <-> i = 1%nat \/ i = 4%nat).
Proof.
  intros Hi. case_index i; eval_tables; split; intros H;
    try lra; try (destruct H; discriminate); auto.
Qed.

(* ================================================================== *)
(** ** What each method computes at a classified altitude *)

Lemma get_temperature_at (h : R) (i : nat) :
  get_level h = Some i ->
  get_temperature h = Ok (Num (temperature (layer i) h)).
Proof.
  intros E. pose proof (get_level_lt_6 _ _ E) as Hi.
  case_index i; eval_method; eval_tables; reflexivity.
Qed.

Lemma get_pressure_isothermal_at (h : R) (i : nat) :
  get_level h = Some i -> isothermal (layer i) ->
  get_pressure h = Ok (Num (isothermal_pressure (layer i) h)).
Proof.
  intros E Hiso. pose proof (get_level_lt_6 _ _ E) as Hi.
  apply isothermal_iff in Hiso; [|exact Hi].
  destruct Hiso; subst i; eval_method; eval_tables;
    do 2 apply f_equal; apply f_equal; apply f_equal; lra.
Qed.

Lemma get_density_isothermal_at (h : R) (i : nat) :
  get_level h = Some i -> isothermal (layer i) ->
  get_density h = Ok (Num (isothermal_density (layer i) h)).
Proof.
  intros E Hiso. pose proof (get_level_lt_6 _ _ E) as Hi.
  apply isothermal_iff in Hiso; [|exact Hi].
  destruct Hiso; subst i; eval_method; eval_tables;
    do 2 apply f_equal; apply f_equal; apply f_equal; lra.
Qed.

(** In the other layers the power law is applied with the entry of
    [Lb_list]. *)
Lemma get_pressure_power_at (h : R) (i : nat) :
  get_level h = Some i -> nth i Lb_list 0 <> 0 ->
  get_pressure h =
  Ok (Num (base_pressure (layer i)
           * polytropic_factor (layer i) (nth i Lb_list 0)
               (g * M / (Rgas * nth i Lb_list 0)) h)).
Proof.
  intros E Hnz. pose proof (get_level_lt_6 _ _ E) as Hi.
  case_index i; eval_method; eval_tables; try (exfalso; lra); reflexivity.
Qed.

Lemma get_density_power_at (h : R) (i : nat) :
  get_level h = Some i -> nth i Lb_list 0 <> 0 ->
  get_density h =
  Ok (Num (base_density (layer i)
           * polytropic_factor (layer i) (nth i Lb_list 0)
               (g * M / (Rgas * nth i Lb_list 0) - 1) h)).
Proof.
  intros E Hnz. pose proof (get_level_lt_6 _ _ E) as Hi.
  case_index i; eval_method; eval_tables; try (exfalso; lra); reflexivity.
Qed.

Lemma not_isothermal_Lb (i : nat) :
  ~ isothermal (layer i) -> nth i Lb_list 0 <> 0.
Proof.
  unfold isothermal. rewrite lapse_rate_layer, Lb_list_opp_a_list. lra.
Qed.

(** That entry is the record's lapse rate with the sign changed. *)
Lemma get_pressure_polytropic_at (h : R) (i : nat) :
  get_level h = Some i -> ~ isothermal (layer i) ->
  get_pressure h = Ok (Num (barometric_pressure (layer i) h)).
Proof.
  intros E Hiso.
  rewrite (get_pressure_power_at h i E (not_isothermal_Lb i Hiso)).
  unfold barometric_pressure.
  now rewrite lapse_rate_layer, <- Lb_list_opp_a_list.
Qed.

Lemma get_density_polytropic_at (h : R) (i : nat) :
  get_level h = Some i -> ~ isothermal (layer i) ->
  get_density h = Ok (Num (barometric_density (layer i) h)).
Proof.
  intros E Hiso.
  rewrite (get_density_power_at h i E (not_isothermal_Lb i Hiso)).
  unfold barometric_density.
  now rewrite lapse_rate_layer, <- Lb_list_opp_a_list.
Qed.

(* ================================================================== *)
(** ** Classification (C3) *)

(** C3.  For every altitude [h < 71000], [get_level] returns an index [i] in
    0..5: the first partition of the breakpoints 11000, 20000, 32000, 47000,
    51000, 71000 whose upper bound exceeds [h].  For [0 <= h] it is the only
    index with [base_altitude <= h < upper bound], and the last layer whose
    base altitude does not exceed [h]; every [h < 0] is classified as index
    0, the troposphere. *)
Theorem get_level_partition (h : R) :
  h < 71000 ->
  exists i : nat,
    get_level h = Some i /\ (i < 6)%nat
    /\ h < upper_bound i
    /\ (forall j : nat, (j < i)%nat -> upper_bound j <= h)
    /\ (0 <= h ->
        base_altitude (layer i) <= h
        /\ (forall j : nat, (j < 6)%nat ->
              base_altitude (layer j) <= h < upper_bound j -> j = i)
        /\ (forall j : nat, (j < 6)%nat ->
              base_altitude (layer j) <= h -> (j <= i)%nat))
    /\ (h < 0 -> i = 0%nat).
Proof.
  intros Hh.
  split_level h; try lra;
    match goal with
    | E : get_level _ = Some ?k |- _ => exists k
    end;
    (split; [assumption|]); (split; [lia|]);
    (split; [eval_tables; lra|]);
    (split; [intros j Hj; case_index j; eval_tables; try lra; lia|]);
    (split; [intros Hnonneg; split; [eval_tables; lra|]; split; intros j Hj Hb;
                case_index j; eval_tables; try lia; exfalso; lra
            | intros Hneg; try reflexivity; exfalso; lra]).
Qed.

Lemma get_level_partition_witness : get_level (-5) = Some 0%nat.
Proof.
  destruct (get_level_partition (-5)) as (i & E & _ & _ & _ & _ & Hneg).
  - lra.
  - rewrite E. f_equal. apply Hneg. lra.
Defined.

(* ================================================================== *)
(** ** Temperature (C5) *)

(** C5.  For every altitude [h] in [0, 71000), [get_temperature h] is
    [T_b + lapse_rate * (h - h_b)] with the base temperature, the signed lapse
    rate and the base altitude of the layer [get_level h]; the equality is
    exact in real arithmetic. *)
Theorem get_temperature_linear (h : R) :
  0 <= h < 71000 ->
  exists i : nat,
    get_level h = Some i
    /\ base_temperature (layer i) = nth i Tb_list 0
    /\ lapse_rate (layer i) = nth i a_list 0
    /\ base_altitude (layer i) = nth i hb_list 0
    /\ get_temperature h =
       Ok (Num (base_temperature (layer i)
                + lapse_rate (layer i) * (h - base_altitude (layer i)))).
Proof.
  intros [_ Hh].
  assert (Hi : exists i : nat, get_level h = Some i).
  { split_level h; try lra; eauto. }
  destruct Hi as (i & E).
  exists i. repeat split; try assumption.
  exact (get_temperature_at h i E).
Qed.

Lemma get_temperature_linear_witness :
  get_temperature 5000 = Ok (Num (288.15 + -0.0065 * (5000 - 0))).
Proof.
  destruct (get_temperature_linear 5000) as (i & E & _ & _ & _ & ->).
  - lra.
  - assert (i = 0%nat) as ->.
    { split_level 5000; try lra. congruence. }
    reflexivity.
Defined.

(* ================================================================== *)
(** ** The isothermal branch of the pressure (C6) *)

(** C6.  For every altitude [h] in [11000, 20000), the tropopause, whose
    lapse rate is zero, [get_pressure h] is
    [22632.06 * exp(-9.81*0.028964*(h - 11000) / (8.314*216.65))]: the
    isothermal formula [P_b * exp(-g*M*(h - h_b)/(R*T_b))] with the constants
    of layer 1. *)
Theorem get_pressure_tropopause (h : R) :
  11000 <= h < 20000 ->
  get_level h = Some 1%nat
  /\ nth 1 Lb_list 0 = 0
  /\ get_pressure h =
     Ok (Num (22632.06
              * exp (-9.81 * 0.028964 * (h - 11000) / (8.314 * 216.65))))
  /\ get_pressure h = Ok (Num (isothermal_pressure (layer 1) h)).
Proof.
  intros Hh.
  assert (E : get_level h = Some 1%nat).
  { split_level h; try lra. assumption. }
  split; [exact E|]. split; [reflexivity|]. split.
  - eval_method. reflexivity.
  - apply get_pressure_isothermal_at; [exact E|]. reflexivity.
Qed.

Lemma get_pressure_tropopause_witness :
  get_pressure 15000 =
  Ok (Num (22632.06
           * exp (-9.81 * 0.028964 * (15000 - 11000) / (8.314 * 216.65)))).
Proof.
  apply (get_pressure_tropopause 15000). lra.
Defined.

(* ================================================================== *)
(** ** The two lapse-rate lists (C9) *)

Lemma temperature_layer_pos (h : R) (i : nat) :
  get_level h = Some i -> 0 < temperature (layer i) h.
Proof.
  intros E. pose proof (get_level_lt_6 _ _ E) as Hi.
  split_level h; try congruence;
    match goal with
    | E' : get_level _ = Some ?k |- _ =>
        assert (i = k) as -> by congruence
    end; eval_tables; lra.
Qed.

(** The base of every power that is evaluated is the temperature of the
    altitude over the base temperature of its layer, and it is positive. *)
Lemma power_base_temperature (h : R) (i : nat) :
  (i < 6)%nat ->
  1 - nth i Lb_list 0 * (h - nth i hb_list 0) / nth i Tb_list 0
  = temperature (layer i) h / nth i Tb_list 0.
Proof.
  intros Hi. rewrite Lb_list_opp_a_list.
  pose proof (Tb_list_pos i Hi) as HT.
  unfold temperature, layer; cbn [base_temperature lapse_rate base_altitude].
  field. lra.
Qed.

Lemma power_base_pos (h : R) (i : nat) :
  get_level h = Some i ->
  0 < 1 - nth i Lb_list 0 * (h - nth i hb_list 0) / nth i Tb_list 0.
Proof.
  intros E. pose proof (get_level_lt_6 _ _ E) as Hi.
  rewrite (power_base_temperature h i Hi).
  apply Rdiv_lt_0_compat.
  - now apply temperature_layer_pos.
  - now apply Tb_list_pos.
Qed.

Module Rounding.

Import PrimFloat.
#[local] Set Warnings "-inexact-float".

(** C9 as stated fails in binary64.  At 100 m, in the troposphere, the base
    that [get_pressure] and [get_density] hand to the power is one unit in
    the last place below the quotient of the returned temperature by the
    base temperature: 0.99774423043553706 against 0.99774423043553717. *)
Lemma power_base_is_not_temperature_ratio :
  Binary64.get_level 100 = Some 0%nat
  /\ (forall np_exp float_pow,
        Binary64.get_pressure np_exp float_pow 100
        = (p <- float_pow (Binary64.power_base 0.0065 100 0 288.15)
                          (9.81 * 0.028964 / (8.314 * 0.0065))%float ;;
           Ok (101325.00 * p)%float))
  /\ (forall np_exp float_pow,
        Binary64.get_density np_exp float_pow 100
        = (p <- float_pow (Binary64.power_base 0.0065 100 0 288.15)
                          (9.81 * 0.028964 / (8.314 * 0.0065) - 1)%float ;;
           Ok (1.225 * p)%float))
  /\ exists T : float,
       Binary64.get_temperature 100 = Ok T
       /\ (Binary64.power_base 0.0065 100 0 288.15 <? T / 288.15)%float = true
       /\ Binary64.power_base 0.0065 100 0 288.15 <> (T / 288.15)%float.
Proof.
  split; [vm_compute; reflexivity|].
  split; [intros; reflexivity|].
  split; [intros; reflexivity|].
  eexists. split; [vm_compute; reflexivity|].
  split; [vm_compute; reflexivity|].
  intros H.
  match type of H with
  | ?a = ?b =>
      assert (E : (a =? b)%float = true) by (rewrite H; vm_compute; reflexivity)
  end.
  vm_compute in E. discriminate E.
Qed.

(** Rounding also merges nearby altitudes: at sea level and a picometre
    above it the power receives the same base, 1.0, so whatever the library
    computes, the pressure and the density returned are the same. *)
Lemma sea_level_plateau (np_exp : float -> float)
      (float_pow : float -> float -> result float) :
  (0 <? 1e-12)%float = true
  /\ Binary64.get_pressure np_exp float_pow 0
     = Binary64.get_pressure np_exp float_pow 1e-12
  /\ Binary64.get_density np_exp float_pow 0
     = Binary64.get_density np_exp float_pow 1e-12.
Proof.
  split; [vm_compute; reflexivity|]. split; vm_compute; reflexivity.
Qed.

End Rounding.

(** C9, amended.  The list [_Lb] of [get_pressure] and [get_density] is,
    entry by entry, the negation of the list [_a] of [get_temperature];
    hence for every altitude [h] in [0, 71000) in a layer that is not
    isothermal, the base [B = 1 - _Lb*(h - h_b)/T_b] that both methods raise
    to their power agrees with [get_temperature(h) / T_b] within the
    tolerance of floating-point comparison. *)
Theorem Lb_list_negates_a_list :
  Forall2 (fun Lb a : R => Lb = - a) Lb_list a_list
  /\ forall (h : R) (i : nat),
       0 <= h < 71000 -> get_level h = Some i -> nth i Lb_list 0 <> 0 ->
       let B := 1 - nth i Lb_list 0 * (h - nth i hb_list 0) / nth i Tb_list 0 in
       exists T : R,
         get_temperature h = Ok (Num T)
         /\ get_pressure h =
            Ok (Num (nth i Pb_list 0
                     * Rpower B (9.81 * 0.028964 / (8.314 * nth i Lb_list 0))))
         /\ get_density h =
            Ok (Num (nth i Db_list 0
                     * Rpower B (9.81 * 0.028964 / (8.314 * nth i Lb_list 0) - 1)))
         /\ within tolerance B (T / nth i Tb_list 0).
Proof.
  split.
  - unfold Lb_list, a_list. repeat constructor; lra.
  - intros h i _ E Hnz. cbv zeta. exists (temperature (layer i) h).
    split; [now apply get_temperature_at|].
    split; [exact (get_pressure_power_at h i E Hnz)|].
    split; [exact (get_density_power_at h i E Hnz)|].
    rewrite (power_base_temperature h i (get_level_lt_6 _ _ E)).
    apply within_refl. unfold tolerance. lra.
Qed.

Lemma Lb_list_negates_a_list_witness :
  exists T : R,
    get_temperature 5000 = Ok (Num T)
    /\ get_pressure 5000 =
       Ok (Num (nth 0 Pb_list 0
                * Rpower (1 - nth 0 Lb_list 0 * (5000 - nth 0 hb_list 0)
                              / nth 0 Tb_list 0)
                    (9.81 * 0.028964 / (8.314 * nth 0 Lb_list 0))))
    /\ get_density 5000 =
       Ok (Num (nth 0 Db_list 0
                * Rpower (1 - nth 0 Lb_list 0 * (5000 - nth 0 hb_list 0)
                              / nth 0 Tb_list 0)
                    (9.81 * 0.028964 / (8.314 * nth 0 Lb_list 0) - 1)))
    /\ within tolerance
         (1 - nth 0 Lb_list 0 * (5000 - nth 0 hb_list 0) / nth 0 Tb_list 0)
         (T / nth 0 Tb_list 0).
Proof.
  destruct Lb_list_negates_a_list as (_ & H).
  apply (H 5000 0%nat).
  - lra.
  - split_level 5000; try lra. assumption.
  - cbv [nth Lb_list]. lra.
Defined.

(* ================================================================== *)
(** ** Altitudes without a layer (C10, C2) *)

Lemma unclassified_get_level (height : float) :
  unclassified height -> get_level height = None.
Proof.
  intros [-> | (h & -> & Hh)]; [reflexivity|].
  split_level h; try lra. assumption.
Qed.

Lemma subscript_None {A : Type} (l : list A) : l.[None] = Raise TypeError.
Proof. reflexivity. Qed.

Lemma no_level_raises (height : float) :
  get_level height = None ->
  get_temperature height = Raise TypeError
  /\ get_pressure height = Raise TypeError
  /\ get_density height = Raise TypeError.
Proof.
  intros E. unfold get_temperature, get_pressure, get_density.
  rewrite E. repeat split.
Qed.

(** C10.  For every altitude [h >= 71000], and for NaN, which fails every
    comparison, [get_level] returns no index ([None]); each of
    [get_temperature], [get_pressure] and [get_density] then raises a
    [TypeError] when it subscripts its first list.  None of the three returns
    a number, and none raises [OutOfRangeAltitude] or [InvalidInput]. *)
Theorem unclassified_raises_TypeError (height : float) :
  unclassified height ->
  get_level height = None
  /\ (get_temperature height = Raise TypeError
      /\ get_pressure height = Raise TypeError
      /\ get_density height = Raise TypeError)
  /\ (forall v : float,
        get_temperature height <> Ok v
        /\ get_pressure height <> Ok v
        /\ get_density height <> Ok v)
  /\ (forall e : exn,
        e = OutOfRangeAltitude \/ e = InvalidInput ->
        get_temperature height <> Raise e
        /\ get_pressure height <> Raise e
        /\ get_density height <> Raise e).
Proof.
  intros Hu. pose proof (unclassified_get_level _ Hu) as E.
  destruct (no_level_raises _ E) as (HT & HP & HD).
  split; [exact E|]. split; [repeat split; assumption|].
  rewrite HT, HP, HD. split.
  - intros v. repeat split; discriminate.
  - intros e [-> | ->]; repeat split; discriminate.
Qed.

Lemma unclassified_raises_TypeError_witness :
  get_level NaN = None /\ get_pressure 80000 = Raise TypeError.
Proof.
  split.
  - apply (unclassified_raises_TypeError NaN). left. reflexivity.
  - apply (unclassified_raises_TypeError 80000).
    right. exists 80000. split; [reflexivity | lra].
Defined.

(** C2 as stated fails.  At 71000 the temperature evaluator raises [TypeError], not
    [OutOfRangeAltitude]; at 80000 so does the pressure evaluator. *)
Lemma out_of_range_not_signalled :
  71000 <= 71000
  /\ get_temperature 71000 = Raise TypeError
  /\ get_pressure 80000 = Raise TypeError
  /\ ~ signals_out_of_range 71000
  /\ ~ signals_out_of_range 80000.
Proof.
  assert (E1 : get_level 71000 = None) by (split_level 71000; try lra; assumption).
  assert (E2 : get_level 80000 = None) by (split_level 80000; try lra; assumption).
  destruct (no_level_raises _ E1) as (HT1 & _).
  destruct (no_level_raises _ E2) as (HT2 & HP2 & _).
  split; [lra|]. split; [exact HT1|]. split; [exact HP2|].
  split; intros (H & _); [rewrite HT1 in H | rewrite HT2 in H]; discriminate.
Qed.

(** C2, amended.  For every altitude [h >= 71000] each evaluator fails: it
    raises (a [TypeError]) and returns no value.  The error is not a
    dedicated out-of-range condition. *)
Theorem above_range_raises (h : R) :
  71000 <= h ->
  (get_temperature h = Raise TypeError
   /\ get_pressure h = Raise TypeError
   /\ get_density h = Raise TypeError)
  /\ forall v : float,
       get_temperature h <> Ok v
       /\ get_pressure h <> Ok v
       /\ get_density h <> Ok v.
Proof.
  intros Hh.
  assert (E : get_level h = None) by (split_level h; try lra; assumption).
  destruct (no_level_raises _ E) as (HT & HP & HD).
  split; [repeat split; assumption|].
  intros v. rewrite HT, HP, HD. repeat split; discriminate.
Qed.

Lemma above_range_raises_witness :
  71000 <= 71000 /\ get_density 71000 = Raise TypeError.
Proof.
  split; [lra|]. apply (above_range_raises 71000). lra.
Defined.

(* ================================================================== *)
(** ** Reference values (C4) *)

Lemma Rpower_1_base (y : R) : Rpower 1 y = 1.
Proof. unfold Rpower. rewrite ln_1, Rmult_0_r. apply exp_0. Qed.

(** At the base altitude of a layer each evaluator returns the base constant
    of that layer. *)
Lemma evaluators_at_base (i : nat) :
  get_level (nth i hb_list 0) = Some i ->
  get_temperature (nth i hb_list 0) = Ok (Num (nth i Tb_list 0))
  /\ get_pressure (nth i hb_list 0) = Ok (Num (nth i Pb_list 0))
  /\ get_density (nth i hb_list 0) = Ok (Num (nth i Db_list 0)).
Proof.
  intros E. pose proof (get_level_lt_6 _ _ E) as Hi.
  pose proof (Tb_list_pos i Hi) as HT.
  split; [|split].
  - rewrite (get_temperature_at _ _ E). do 2 f_equal.
    unfold temperature, layer; cbn [base_temperature lapse_rate base_altitude].
    lra.
  - destruct (Req_dec_T (nth i Lb_list 0) 0) as [Hz | Hnz].
    + rewrite (get_pressure_isothermal_at _ _ E).
      * do 2 f_equal. unfold isothermal_pressure, isothermal_factor, layer;
          cbn [base_pressure base_temperature base_altitude].
        replace (- g * M * (nth i hb_list 0 - nth i hb_list 0)
                 / (Rgas * nth i Tb_list 0)) with 0.
        -- rewrite exp_0. lra.
        -- unfold Rminus, Rdiv. rewrite Rplus_opp_r. ring.
      * unfold isothermal. rewrite lapse_rate_layer.
        rewrite Lb_list_opp_a_list in Hz. lra.
    + rewrite (get_pressure_power_at _ _ E Hnz). do 2 f_equal.
      unfold polytropic_factor, layer; cbn [base_pressure base_temperature base_altitude].
      replace (1 - nth i Lb_list 0 * (nth i hb_list 0 - nth i hb_list 0) / nth i Tb_list 0)
        with 1 by (unfold Rminus, Rdiv; rewrite Rplus_opp_r; ring).
      rewrite Rpower_1_base. lra.
  - destruct (Req_dec_T (nth i Lb_list 0) 0) as [Hz | Hnz].
    + rewrite (get_density_isothermal_at _ _ E).
      * do 2 f_equal. unfold isothermal_density, isothermal_factor, layer;
          cbn [base_density base_temperature base_altitude].
        replace (- g * M * (nth i hb_list 0 - nth i hb_list 0)
                 / (Rgas * nth i Tb_list 0)) with 0.
        -- rewrite exp_0. lra.
        -- unfold Rminus, Rdiv. rewrite Rplus_opp_r. ring.
      * unfold isothermal. rewrite lapse_rate_layer.
        rewrite Lb_list_opp_a_list in Hz. lra.
    + rewrite (get_density_power_at _ _ E Hnz). do 2 f_equal.
      unfold polytropic_factor, layer; cbn [base_density base_temperature base_altitude].
      replace (1 - nth i Lb_list 0 * (nth i hb_list 0 - nth i hb_list 0) / nth i Tb_list 0)
        with 1 by (unfold Rminus, Rdiv; rewrite Rplus_opp_r; ring).
      rewrite Rpower_1_base. lra.
Qed.

Lemma get_level_at_base (i : nat) :
  (i < 6)%nat -> get_level (nth i hb_list 0) = Some i.
Proof.
  intros Hi.
  case_index i; cbv [nth hb_list];
    match goal with
    | |- get_level (Num ?h) = _ => split_level h; try lra; assumption
    end.
Qed.

Lemma returns_exactly (m : result float) (ref : R) :
  m = Ok (Num ref) -> returns_within m ref.
Proof.
  intros ->. exists ref. split; [reflexivity|].
  apply within_refl. unfold tolerance. lra.
Qed.

(** C4.  The evaluators return the reference values of the standard
    atmosphere within the tolerance 1e-6: 288.15 K, 101325.00 Pa and
    1.225 kg/m3 at sea level; 216.65 K and 22632.06 Pa at 11000 m;
    0.08803 kg/m3 at 20000 m.  In real arithmetic each is returned exactly. *)
Theorem reference_values :
  (returns_within (get_temperature 0) 288.15
   /\ returns_within (get_pressure 0) 101325.00
   /\ returns_within (get_density 0) 1.225
   /\ returns_within (get_temperature 11000) 216.65
   /\ returns_within (get_pressure 11000) 22632.06
   /\ returns_within (get_density 20000) 0.08803)
  /\ (get_temperature 0 = Ok (Num 288.15)
      /\ get_pressure 0 = Ok (Num 101325.00)
      /\ get_density 0 = Ok (Num 1.225)
      /\ get_temperature 11000 = Ok (Num 216.65)
      /\ get_pressure 11000 = Ok (Num 22632.06)
      /\ get_density 20000 = Ok (Num 0.08803)).
Proof.
  destruct (evaluators_at_base 0 (get_level_at_base 0 ltac:(lia))) as (T0 & P0 & D0).
  destruct (evaluators_at_base 1 (get_level_at_base 1 ltac:(lia))) as (T1 & P1 & _).
  destruct (evaluators_at_base 2 (get_level_at_base 2 ltac:(lia))) as (_ & _ & D2).
  cbv [nth hb_list Tb_list Pb_list Db_list] in *.
  split; repeat split; try apply returns_exactly; assumption.
Qed.

(* ================================================================== *)
(** ** The polytropic branch (C1) *)

Lemma Rpower_lt_1 (b c : R) : 0 < b < 1 -> 0 < c -> Rpower b c < 1.
Proof.
  intros Hb Hc. rewrite <- (Rpower_1_base c).
  apply Rlt_Rpower_l; lra.
Qed.

(** With the sign of the lapse constant flipped in both places the power law
    gives a strictly larger factor: (1 - x)^c < (1 + x)^(-c). *)
Lemma Rpower_flip_lt (x c : R) :
  0 < x < 1 -> 0 < c -> Rpower (1 - x) c < Rpower (1 + x) (- c).
Proof.
  intros Hx Hc.
  rewrite Rpower_Ropp.
  assert (Hp : 0 < Rpower (1 + x) c) by apply exp_pos.
  apply (Rmult_lt_reg_r (Rpower (1 + x) c)); [exact Hp|].
  rewrite Rinv_l by lra.
  rewrite Rpower_mult_distr by lra.
  apply Rpower_lt_1; [nra | exact Hc].
Qed.

(** C1 as stated fails.  At 1000 m, in the troposphere, the pressure returned is not the value of
    the formula with the temperature lapse rate. *)
Lemma polytropic_as_worded_fails :
  0 <= 1000 < 71000
  /\ get_level 1000 = Some 0%nat
  /\ ~ isothermal (layer 0)
  /\ (exists P : R, get_pressure 1000 = Ok (Num P)
                    /\ P < polytropic_pressure (layer 0) 1000)
  /\ ~ polytropic_as_worded 1000 0.
Proof.
  assert (E : get_level 1000 = Some 0%nat)
    by (split_level 1000; try lra; assumption).
  assert (Hiso : ~ isothermal (layer 0)) by (eval_tables; lra).
  assert (Hlt : barometric_pressure (layer 0) 1000
                < polytropic_pressure (layer 0) 1000).
  { eval_tables.
    apply Rmult_lt_compat_l; [lra|].
    replace (1 - - (-0.0065) * (1000 - 0) / 288.15) with (1 - 6.5 / 288.15) by lra.
    replace (1 - -0.0065 * (1000 - 0) / 288.15) with (1 + 6.5 / 288.15) by lra.
    replace (9.81 * 0.028964 / (8.314 * -0.0065))
      with (- (9.81 * 0.028964 / (8.314 * - (-0.0065)))) by (field; lra).
    apply Rpower_flip_lt.
    - split; [apply Rdiv_lt_0_compat; lra|].
      apply (Rmult_lt_reg_r 288.15); [lra|]. unfold Rdiv.
      rewrite Rmult_assoc, Rinv_l by lra. lra.
    - apply Rdiv_lt_0_compat; lra. }
  split; [lra|]. split; [exact E|]. split; [exact Hiso|]. split.
  - exists (barometric_pressure (layer 0) 1000). split; [|exact Hlt].
    now apply get_pressure_polytropic_at.
  - intros (HP & _).
    rewrite (get_pressure_polytropic_at _ _ E Hiso) in HP.
    apply Ok_inj, Num_inj in HP. lra.
Qed.

(** C1, amended.  For every altitude [h] in [0, 71000) whose layer is not
    isothermal, [get_pressure h = P_b * (1 - L*(h - h_b)/T_b) ^ (g*M/(R*L))]
    and [get_density h = D_b * (1 - L*(h - h_b)/T_b) ^ (g*M/(R*L) - 1)] with
    g = 9.81, M = 0.028964, R = 8.314, where [L] is the entry of [_Lb] for the
    layer: the lapse rate of the temperature formula with its sign changed. *)
Theorem polytropic_branch (h : R) (i : nat) :
  0 <= h < 71000 -> get_level h = Some i -> ~ isothermal (layer i) ->
  let L := nth i Lb_list 0 in
  let P_b := base_pressure (layer i) in
  let D_b := base_density (layer i) in
  let T_b := base_temperature (layer i) in
  let h_b := base_altitude (layer i) in
  L = - lapse_rate (layer i)
  /\ get_pressure h =
     Ok (Num (P_b * Rpower (1 - L * (h - h_b) / T_b)
                      (9.81 * 0.028964 / (8.314 * L))))
  /\ get_density h =
     Ok (Num (D_b * Rpower (1 - L * (h - h_b) / T_b)
                      (9.81 * 0.028964 / (8.314 * L) - 1)))
  /\ 0 < 1 - L * (h - h_b) / T_b.
Proof.
  intros _ E Hiso. cbv zeta.
  pose proof (not_isothermal_Lb i Hiso) as Hnz.
  split; [apply Lb_list_opp_a_list|]. split; [|split].
  - exact (get_pressure_power_at h i E Hnz).
  - exact (get_density_power_at h i E Hnz).
  - exact (power_base_pos h i E).
Qed.

Lemma polytropic_branch_witness :
  get_pressure 1000 =
  Ok (Num (101325.00 * Rpower (1 - 0.0065 * (1000 - 0) / 288.15)
                         (9.81 * 0.028964 / (8.314 * 0.0065)))).
Proof.
  apply (polytropic_branch 1000 0).
  - lra.
  - split_level 1000; try lra; assumption.
  - eval_tables. lra.
Defined.

(* ================================================================== *)
(** ** The formula of a layer *)

Lemma get_pressure_in_layer (h : R) (i : nat) :
  get_level h = Some i -> get_pressure h = Ok (Num (pressure_in_layer i h)).
Proof.
  intros E. unfold pressure_in_layer.
  destruct (Req_dec_T (nth i Lb_list 0) 0) as [Hz | Hnz].
  - apply get_pressure_isothermal_at; [exact E|].
    unfold isothermal. rewrite lapse_rate_layer.
    rewrite Lb_list_opp_a_list in Hz. lra.
  - now apply get_pressure_power_at.
Qed.

Lemma get_density_in_layer (h : R) (i : nat) :
  get_level h = Some i -> get_density h = Ok (Num (density_in_layer i h)).
Proof.
  intros E. unfold density_in_layer.
  destruct (Req_dec_T (nth i Lb_list 0) 0) as [Hz | Hnz].
  - apply get_density_isothermal_at; [exact E|].
    unfold isothermal. rewrite lapse_rate_layer.
    rewrite Lb_list_opp_a_list in Hz. lra.
  - now apply get_density_power_at.
Qed.

(* ================================================================== *)
(** ** Monotonicity inside a layer *)

Lemma Rpower_lt_neg_exponent (a b c : R) :
  c < 0 -> 0 < a < b -> Rpower b c < Rpower a c.
Proof.
  intros Hc Hab.
  set (d := - c). replace c with (- d) by (unfold d; lra).
  rewrite !Rpower_Ropp.
  apply Rinv_lt_contravar.
  - apply Rmult_lt_0_compat; apply exp_pos.
  - apply Rlt_Rpower_l; [unfold d; lra | exact Hab].
Qed.

(** The exponents of the two power laws, layer by layer: they have the sign
    of the entry of [Lb_list]. *)
Lemma exponent_sign (i : nat) :
  let L := nth i Lb_list 0 in
  (0 < L -> 1 < g * M / (Rgas * L))
  /\ (L < 0 -> g * M / (Rgas * L) < 0).
Proof.
  cbv zeta. split; intros HL.
  - assert (Hi : (i < 6)%nat).
    { destruct (Nat.lt_ge_cases i 6) as [|Hge]; [assumption|].
      rewrite nth_overflow in HL by exact Hge. lra. }
    case_index i; cbv [nth Lb_list g M Rgas] in *; try lra;
      (apply Rlt_div_r; lra).
  - unfold Rdiv. unfold g, M, Rgas.
    assert (H : / (8.314 * nth i Lb_list 0) < 0).
    { apply Rinv_lt_0_compat. nra. }
    nra.
Qed.

Lemma isothermal_factor_decreasing (i : nat) (h1 h2 : R) :
  (i < 6)%nat -> h1 < h2 ->
  isothermal_factor (layer i) h2 < isothermal_factor (layer i) h1.
Proof.
  intros Hi Hlt. unfold isothermal_factor.
  apply exp_increasing.
  pose proof (Tb_list_pos i Hi) as HT.
  unfold layer; cbn [base_altitude base_temperature]. unfold g, M, Rgas.
  unfold Rdiv.
  assert (Hinv : 0 < / (8.314 * nth i Tb_list 0)).
  { apply Rinv_0_lt_compat. lra. }
  nra.
Qed.

Lemma polytropic_factor_decreasing (i : nat) (h1 h2 e : R) :
  get_level h1 = Some i -> get_level h2 = Some i -> h1 < h2 ->
  let L := nth i Lb_list 0 in
  L <> 0 ->
  e = g * M / (Rgas * L) \/ e = g * M / (Rgas * L) - 1 ->
  polytropic_factor (layer i) L e h2 < polytropic_factor (layer i) L e h1.
Proof.
  intros E1 E2 Hlt L HL He.
  pose proof (get_level_lt_6 _ _ E1) as Hi.
  pose proof (Tb_list_pos i Hi) as HT.
  pose proof (power_base_pos h1 i E1) as B1.
  pose proof (power_base_pos h2 i E2) as B2.
  destruct (exponent_sign i) as (Hpos & Hneg). fold L in Hpos, Hneg, B1, B2.
  unfold polytropic_factor, layer; cbn [base_altitude base_temperature].
  assert (Hinv : 0 < / nth i Tb_list 0) by now apply Rinv_0_lt_compat.
  set (k := L * / nth i Tb_list 0).
  assert (Hbase : forall h : R,
             1 - L * (h - nth i hb_list 0) / nth i Tb_list 0
             = 1 - k * (h - nth i hb_list 0))
    by (intros h; unfold k, Rdiv; ring).
  rewrite !Hbase in *.
  destruct (Rtotal_order L 0) as [HLn | [HLz | HLp]]; [| contradiction |].
  - assert (Hk : k < 0) by (unfold k; nra).
    apply Rpower_lt_neg_exponent.
    + specialize (Hneg HLn). destruct He as [-> | ->]; lra.
    + split; [exact B1|]. nra.
  - assert (Hk : 0 < k) by (unfold k; nra).
    apply Rlt_Rpower_l.
    + specialize (Hpos HLp). destruct He as [-> | ->]; lra.
    + split; [exact B2|]. nra.
Qed.

Lemma base_constants_pos (i : nat) :
  (i < 6)%nat -> 0 < base_pressure (layer i) /\ 0 < base_density (layer i).
Proof.
  intros Hi. case_index i; eval_tables; lra.
Qed.

Lemma pressure_in_layer_decreasing (i : nat) (h1 h2 : R) :
  get_level h1 = Some i -> get_level h2 = Some i -> h1 < h2 ->
  pressure_in_layer i h2 < pressure_in_layer i h1.
Proof.
  intros E1 E2 Hlt. pose proof (get_level_lt_6 _ _ E1) as Hi.
  destruct (base_constants_pos i Hi) as (HP & _).
  unfold pressure_in_layer, isothermal_pressure.
  destruct (Req_dec_T (nth i Lb_list 0) 0) as [Hz | Hnz];
    apply Rmult_lt_compat_l; try exact HP.
  - now apply isothermal_factor_decreasing.
  - apply polytropic_factor_decreasing; auto.
Qed.

Lemma density_in_layer_decreasing (i : nat) (h1 h2 : R) :
  get_level h1 = Some i -> get_level h2 = Some i -> h1 < h2 ->
  density_in_layer i h2 < density_in_layer i h1.
Proof.
  intros E1 E2 Hlt. pose proof (get_level_lt_6 _ _ E1) as Hi.
  destruct (base_constants_pos i Hi) as (_ & HD).
  unfold density_in_layer, isothermal_density.
  destruct (Req_dec_T (nth i Lb_list 0) 0) as [Hz | Hnz];
    apply Rmult_lt_compat_l; try exact HD.
  - now apply isothermal_factor_decreasing.
  - apply polytropic_factor_decreasing; auto.
Qed.

(* ================================================================== *)
(** ** A bound on the power law below the seam at 47000 m *)

(** An upper bound for a power with a negative exponent, through a rational
    exponent [r = p/q]: if [y^q < b0^p] then [b^e < 1/y] for every base
    [b >= b0 >= 1] and every exponent [e <= -r]. *)
Lemma Rpower_neg_exponent_bound (b0 b e r y : R) (p q : nat) :
  1 <= b0 <= b -> 0 < y -> e <= - r -> r * INR q = INR p ->
  y ^ q < b0 ^ p ->
  Rpower b e < / y.
Proof.
  intros Hb Hy He Hr Hpow.
  assert (Hb0 : 0 < b) by lra.
  apply Rle_lt_trans with (Rpower b (- r)).
  { apply Rle_Rpower; lra. }
  rewrite Rpower_Ropp.
  set (s := Rpower b r).
  assert (Hs : 0 < s) by apply exp_pos.
  assert (Hsq : s ^ q = b ^ p).
  { rewrite <- (Rpower_pow q s Hs). unfold s.
    rewrite Rpower_mult, Hr. now apply Rpower_pow. }
  apply Rinv_lt_contravar; [now apply Rmult_lt_0_compat|].
  destruct (Rlt_le_dec y s) as [Hlt | Hle]; [exact Hlt|].
  exfalso.
  assert (H1 : s ^ q <= y ^ q) by (apply pow_incr; lra).
  assert (H2 : b0 ^ p <= b ^ p) by (apply pow_incr; lra).
  lra.
Qed.

(** Just below 47000 m the stratopause formula gives a density more than one
    part in a thousand below 0.00143, the base density of the mesosphere. *)
Lemma density_below_47000 (h : R) :
  46999 <= h <= 47000 -> density_in_layer 3 h < 0.00143 * 0.999.
Proof.
  intros Hh. unfold density_in_layer.
  destruct (Req_dec_T (nth 3 Lb_list 0) 0) as [Hz | _].
  { exfalso. cbv [nth Lb_list] in Hz. lra. }
  eval_tables.
  assert (Hp : Rpower (1 - -0.0028 * (h - 32000) / 228.65)
                 (9.81 * 0.028964 / (8.314 * -0.0028) - 1) < / 9.2541).
  { apply (Rpower_neg_exponent_bound 1.18367 _ _ 13.2 _ 66 5).
    - lra.
    - lra.
    - replace (8.314 * -0.0028) with (-0.0232792) by lra. lra.
    - rewrite !INR_IZR_INZ. cbn [Z.of_nat Pos.of_succ_nat Pos.succ]. lra.
    - lra. }
  apply (Rmult_lt_compat_l 0.01322) in Hp; lra.
Qed.

(** The pressure does the same: just below 47000 m the stratopause formula
    is more than one part in ten thousand below 110.91 Pa, the base pressure
    of the mesosphere. *)
Lemma pressure_below_47000 (h : R) :
  46999 <= h <= 47000 -> pressure_in_layer 3 h < 110.91 * 0.9999.
Proof.
  intros Hh. unfold pressure_in_layer.
  destruct (Req_dec_T (nth 3 Lb_list 0) 0) as [Hz | _].
  { exfalso. cbv [nth Lb_list] in Hz. lra. }
  eval_tables.
  assert (Hp : Rpower (1 - -0.0028 * (h - 32000) / 228.65)
                 (9.81 * 0.028964 / (8.314 * -0.0028)) < / 7.8275).
  { apply (Rpower_neg_exponent_bound 1.18367 _ _ (476 / 39) _ 476 39).
    - lra.
    - lra.
    - replace (8.314 * -0.0028) with (-0.0232792) by lra. lra.
    - rewrite !INR_IZR_INZ. cbn [Z.of_nat Pos.of_succ_nat Pos.succ]. lra.
    - lra. }
  apply (Rmult_lt_compat_l 868.02) in Hp; lra.
Qed.

(* ================================================================== *)
(** ** Monotonic decrease (C8) *)

(** C8 as stated fails.  From 46999 m to 47000 m both the pressure and the density go up: the
    stratopause formulas have fallen below the base pressure and the base
    density of the mesosphere before the seam. *)
Lemma pressure_and_density_rise_at_47000 :
  0 <= 46999 < 71000 /\ 0 <= 47000 < 71000 /\ 46999 < 47000
  /\ (exists P1 P2 D1 D2 : R,
        get_pressure 46999 = Ok (Num P1) /\ get_pressure 47000 = Ok (Num P2)
        /\ get_density 46999 = Ok (Num D1) /\ get_density 47000 = Ok (Num D2)
        /\ P1 < P2 /\ D1 < D2)
  /\ ~ decreases 46999 47000.
Proof.
  assert (E1 : get_level 46999 = Some 3%nat)
    by (split_level 46999; try lra; assumption).
  pose proof (get_pressure_in_layer _ _ E1) as HP1.
  pose proof (get_density_in_layer _ _ E1) as HD1.
  destruct (evaluators_at_base 4 (get_level_at_base 4 ltac:(lia)))
    as (_ & HP2 & HD2).
  cbv [nth hb_list Pb_list Db_list] in HP2, HD2.
  assert (HltP : pressure_in_layer 3 46999 < 110.91).
  { pose proof (pressure_below_47000 46999 ltac:(lra)). lra. }
  assert (HltD : density_in_layer 3 46999 < 0.00143).
  { pose proof (density_below_47000 46999 ltac:(lra)). lra. }
  split; [lra|]. split; [lra|]. split; [lra|]. split.
  - exists (pressure_in_layer 3 46999), 110.91,
           (density_in_layer 3 46999), 0.00143.
    repeat split; assumption.
  - intros (P1 & P2 & D1 & D2 & _ & _ & H1 & H2 & _ & HD).
    rewrite HD1 in H1. rewrite HD2 in H2.
    apply Ok_inj, Num_inj in H1. apply Ok_inj, Num_inj in H2. lra.
Qed.

(** C8, amended.  Inside a layer of [0, 71000), [get_pressure] and
    [get_density] decrease with altitude: for [h1] and [h2] classified into
    the same layer, with [0 <= h1] and [h2] at least one metre above [h1],
    [get_pressure h1 > get_pressure h2] and
    [get_density h1 > get_density h2]. *)
Theorem decreasing_within_layer (h1 h2 : R) (i : nat) :
  0 <= h1 -> h2 < 71000 -> h1 + 1 <= h2 ->
  get_level h1 = Some i -> get_level h2 = Some i ->
  decreases h1 h2.
Proof.
  intros _ _ Hsep E1 E2.
  assert (Hlt : h1 < h2) by lra.
  exists (pressure_in_layer i h1), (pressure_in_layer i h2),
         (density_in_layer i h1), (density_in_layer i h2).
  repeat split.
  - now apply get_pressure_in_layer.
  - now apply get_pressure_in_layer.
  - now apply get_density_in_layer.
  - now apply get_density_in_layer.
  - now apply pressure_in_layer_decreasing.
  - now apply density_in_layer_decreasing.
Qed.

Lemma decreasing_within_layer_witness : decreases 1000 2000.
Proof.
  apply (decreasing_within_layer 1000 2000 0).
  - lra.
  - lra.
  - lra.
  - split_level 1000; try lra; assumption.
  - split_level 2000; try lra; assumption.
Defined.

(* ================================================================== *)
(** ** Continuity at the seams (C7) *)






(* ================================================================== *)
(** ** Further properties of the classifier and the evaluators *)

(** Brings the level of an altitude, known from a case analysis, together
    with the level named in a hypothesis. *)
Ltac same_level :=
  repeat match goal with
         | E : get_level ?h = Some ?a, E' : get_level ?h = Some ?b |- _ =>
             first [ constr_eq a b; clear E'
                   | (assert (b = a) by congruence); subst b; clear E' ]
         | E : get_level ?h = None, E' : get_level ?h = Some _ |- _ =>
             exfalso; congruence
         end.

Lemma get_temperature_value (h T : R) (i : nat) :
  get_level h = Some i -> get_temperature h = Ok (Num T) ->
  T = temperature (layer i) h.
Proof.
  intros E HT. rewrite (get_temperature_at h i E) in HT.
  now apply Ok_inj, Num_inj in HT.
Qed.

Lemma get_temperature_Some (height : float) (v : float) :
  get_temperature height = Ok v ->
  exists (h : R) (i : nat), height = Num h /\ get_level h = Some i.
Proof.
  intros HT. destruct (get_level height) as [i|] eqn:E.
  - destruct (get_level_Some_inv _ _ E) as (h & -> & _). now exists h, i.
  - destruct (no_level_raises _ E) as (HT' & _). congruence.
Qed.

(** X1.  The classifier is monotone and its domain is closed downwards: if
    [h2] has level [j] then every [h1 <= h2] has a level too, and it is at
    most [j]. *)
Theorem get_level_monotone (h1 h2 : R) (j : nat) :
  h1 <= h2 -> get_level h2 = Some j ->
  exists i : nat, get_level h1 = Some i /\ (i <= j)%nat.
Proof.
  intros Hle E2.
  split_level h1; split_level h2; try lra; same_level;
    eexists; (split; [eassumption | lia]).
Qed.

Lemma get_level_monotone_witness :
  exists i : nat, get_level 15000 = Some i /\ (i <= 3)%nat.
Proof.
  apply (get_level_monotone 15000 40000 3).
  - lra.
  - split_level 40000; try lra; assumption.
Defined.

(** X2.  From [floor_altitude] upwards, and for NaN, success and failure are
    decided by the classifier alone and are the same for the three
    evaluators.  Either the altitude is a number below 71000 and each
    evaluator returns a real number (never NaN), or it is not and each raises
    [TypeError].  No call raises [IndexError]. *)
Theorem evaluators_dichotomy (height : float) :
  height = NaN \/ (exists h : R, height = Num h /\ floor_altitude <= h) ->
  (exists h T P D : R,
      height = Num h /\ floor_altitude <= h < 71000
      /\ get_temperature height = Ok (Num T)
      /\ get_pressure height = Ok (Num P)
      /\ get_density height = Ok (Num D))
  \/ (unclassified height
      /\ get_temperature height = Raise TypeError
      /\ get_pressure height = Raise TypeError
      /\ get_density height = Raise TypeError).
Proof.
  intros [-> | (h & -> & Hfloor)].
  - right. split; [left; reflexivity|]. now apply no_level_raises.
  - destruct (Rlt_le_dec h 71000) as [Hlt | Hge].
    + left.
      assert (Hi : exists i : nat, get_level h = Some i)
        by (split_level h; try lra; eauto).
      destruct Hi as (i & E).
      exists h, (temperature (layer i) h), (pressure_in_layer i h),
             (density_in_layer i h).
      split; [reflexivity|]. split; [lra|]. split; [|split].
      * now apply get_temperature_at.
      * now apply get_pressure_in_layer.
      * now apply get_density_in_layer.
    + right.
      assert (Hu : unclassified h) by (right; exists h; split; [reflexivity | lra]).
      split; [exact Hu|].
      apply no_level_raises. now apply unclassified_get_level.
Qed.

Lemma evaluators_dichotomy_witness :
  exists T P D : R,
    get_temperature 5000 = Ok (Num T) /\ get_pressure 5000 = Ok (Num P)
    /\ get_density 5000 = Ok (Num D).
Proof.
  destruct (evaluators_dichotomy 5000) as [(h & T & P & D & _ & _ & H) | (Hu & _)].
  - right. exists 5000. split; [reflexivity | unfold floor_altitude; lra].
  - exists T, P, D. exact H.
  - exfalso. destruct Hu as [Hn | (h & Hh & Hge)]; [discriminate|].
    apply Num_inj in Hh. subst h. lra.
Defined.

Lemma pressure_in_layer_pos (i : nat) (h : R) :
  (i < 6)%nat -> 0 < pressure_in_layer i h.
Proof.
  intros Hi. destruct (base_constants_pos i Hi) as (HP & _).
  unfold pressure_in_layer, isothermal_pressure, isothermal_factor,
    polytropic_factor.
  destruct (Req_dec_T _ _); apply Rmult_lt_0_compat; try exact HP; apply exp_pos.
Qed.

Lemma density_in_layer_pos (i : nat) (h : R) :
  (i < 6)%nat -> 0 < density_in_layer i h.
Proof.
  intros Hi. destruct (base_constants_pos i Hi) as (_ & HD).
  unfold density_in_layer, isothermal_density, isothermal_factor,
    polytropic_factor.
  destruct (Req_dec_T _ _); apply Rmult_lt_0_compat; try exact HD; apply exp_pos.
Qed.

(** X3.  From [floor_altitude] up to 71000 m, below sea level included, the
    temperature, the pressure and the density returned are strictly
    positive. *)
Theorem evaluators_positive (h : R) :
  floor_altitude <= h < 71000 ->
  exists T P D : R,
    get_temperature h = Ok (Num T) /\ get_pressure h = Ok (Num P)
    /\ get_density h = Ok (Num D)
    /\ 0 < T /\ 0 < P /\ 0 < D.
Proof.
  intros [_ Hlt].
  assert (Hi : exists i : nat, get_level h = Some i)
    by (split_level h; try lra; eauto).
  destruct Hi as (i & E). pose proof (get_level_lt_6 _ _ E) as Hi.
  exists (temperature (layer i) h), (pressure_in_layer i h),
         (density_in_layer i h).
  split; [now apply get_temperature_at|].
  split; [now apply get_pressure_in_layer|].
  split; [now apply get_density_in_layer|].
  split; [now apply temperature_layer_pos|].
  split; [now apply pressure_in_layer_pos | now apply density_in_layer_pos].
Qed.

Lemma evaluators_positive_witness :
  exists T P D : R,
    get_temperature (-400) = Ok (Num T) /\ get_pressure (-400) = Ok (Num P)
    /\ get_density (-400) = Ok (Num D)
    /\ 0 < T /\ 0 < P /\ 0 < D.
Proof.
  apply (evaluators_positive (-400)). unfold floor_altitude. lra.
Defined.

(** X4.  Between sea level and 71000 m the temperature stays in
    (214.65, 288.15]: it never exceeds the sea-level value and stays above
    the value the mesopause formula reaches at 71000 m. *)
Theorem temperature_range (h : R) :
  0 <= h < 71000 ->
  exists T : R, get_temperature h = Ok (Num T) /\ 214.65 < T <= 288.15.
Proof.
  intros Hh.
  split_level h; try lra;
    match goal with
    | E : get_level _ = Some ?k |- _ =>
        exists (temperature (layer k) h);
        split; [now apply get_temperature_at | eval_tables; lra]
    end.
Qed.

Lemma temperature_range_witness :
  exists T : R, get_temperature 60000 = Ok (Num T) /\ 214.65 < T <= 288.15.
Proof.
  apply (temperature_range 60000). lra.
Defined.

(** X5.  Between [floor_altitude] and 71000 m the temperature profile is
    Lipschitz up to the tolerance, seams included: two altitudes [h1], [h2]
    give temperatures that differ by at most
    [0.0065 * |h1 - h2| + tolerance]. *)
Theorem temperature_lipschitz (h1 h2 T1 T2 : R) :
  floor_altitude <= h1 -> floor_altitude <= h2 ->
  get_temperature h1 = Ok (Num T1) -> get_temperature h2 = Ok (Num T2) ->
  Rabs (T1 - T2) <= 0.0065 * Rabs (h1 - h2) + tolerance.
Proof.
  intros _ _ H1 H2.
  destruct (get_temperature_Some _ _ H1) as (x1 & i & [= <-] & E1).
  destruct (get_temperature_Some _ _ H2) as (x2 & j & [= <-] & E2).
  rewrite (get_temperature_value _ _ _ E1 H1).
  rewrite (get_temperature_value _ _ _ E2 H2).
  clear H1 H2. unfold tolerance.
  split_level h1; split_level h2; same_level; eval_tables;
    unfold Rabs; repeat destruct (Rcase_abs _); lra.
Qed.

Lemma temperature_lipschitz_witness :
  Rabs (216.65 - 288.15) <= 0.0065 * Rabs (11000 - 0) + tolerance.
Proof.
  apply (temperature_lipschitz 11000 0 216.65 288.15).
  - unfold floor_altitude. lra.
  - unfold floor_altitude. lra.
  - exact (proj1 (evaluators_at_base 1 (get_level_at_base 1 ltac:(lia)))).
  - exact (proj1 (evaluators_at_base 0 (get_level_at_base 0 ltac:(lia)))).
Defined.

Lemma Rpower_succ_exponent (b e : R) :
  0 < b -> Rpower b e = Rpower b (e - 1) * b.
Proof.
  intros Hb. replace e with ((e - 1) + 1) at 1 by ring.
  now rewrite Rpower_plus, Rpower_1.
Qed.

(** X6.  From [floor_altitude] upwards the three evaluators obey, inside
    every layer, the proportion of a perfect gas: [P / (rho * T)] agrees,
    within the tolerance, with [P_b / (D_b * T_b)] at every altitude of the
    layer. *)
Theorem perfect_gas_ratio (h : R) (i : nat) :
  floor_altitude <= h -> get_level h = Some i ->
  exists T P D : R,
    get_temperature h = Ok (Num T) /\ get_pressure h = Ok (Num P)
    /\ get_density h = Ok (Num D)
    /\ within tolerance (P / (D * T))
         (base_pressure (layer i)
          / (base_density (layer i) * base_temperature (layer i))).
Proof.
  intros _ E. pose proof (get_level_lt_6 _ _ E) as Hi.
  exists (temperature (layer i) h), (pressure_in_layer i h),
         (density_in_layer i h).
  split; [now apply get_temperature_at|].
  split; [now apply get_pressure_in_layer|].
  split; [now apply get_density_in_layer|].
  destruct (base_constants_pos i Hi) as (HP & HD).
  pose proof (Tb_list_pos i Hi) as HT.
  pose proof (temperature_layer_pos h i E) as HTh.
  pose proof (power_base_temperature h i Hi) as HB.
  pose proof (power_base_pos h i E) as HBpos.
  assert (Heq : pressure_in_layer i h
                / (density_in_layer i h * temperature (layer i) h)
                = base_pressure (layer i)
                  / (base_density (layer i) * base_temperature (layer i)));
    [| rewrite Heq; apply within_refl; unfold tolerance; lra].
  unfold pressure_in_layer, density_in_layer.
  destruct (Req_dec_T (nth i Lb_list 0) 0) as [Hz | Hnz].
  - unfold isothermal_pressure, isothermal_density.
    assert (HE : 0 < isothermal_factor (layer i) h) by apply exp_pos.
    assert (HTb : temperature (layer i) h = base_temperature (layer i)).
    { unfold temperature. rewrite lapse_rate_layer.
      rewrite Lb_list_opp_a_list in Hz.
      replace (nth i a_list 0) with 0 by lra. ring. }
    rewrite HTb. change (base_temperature (layer i)) with (nth i Tb_list 0).
    field. repeat split; lra.
  - unfold polytropic_factor.
    change (base_altitude (layer i)) with (nth i hb_list 0).
    change (base_temperature (layer i)) with (nth i Tb_list 0).
    set (B := 1 - nth i Lb_list 0 * (h - nth i hb_list 0) / nth i Tb_list 0) in *.
    set (c := g * M / (Rgas * nth i Lb_list 0)).
    rewrite (Rpower_succ_exponent B c HBpos).
    assert (HR : 0 < Rpower B (c - 1)) by apply exp_pos.
    assert (HTB : temperature (layer i) h = B * nth i Tb_list 0).
    { rewrite HB. field. lra. }
    rewrite HTB. field. repeat split; lra.
Qed.

Lemma perfect_gas_ratio_witness :
  exists T P D : R,
    get_temperature 35000 = Ok (Num T) /\ get_pressure 35000 = Ok (Num P)
    /\ get_density 35000 = Ok (Num D)
    /\ within tolerance (P / (D * T))
         (base_pressure (layer 3)
          / (base_density (layer 3) * base_temperature (layer 3))).
Proof.
  apply (perfect_gas_ratio 35000 3).
  - unfold floor_altitude. lra.
  - split_level 35000; try lra; assumption.
Defined.

Lemma base_altitude_le (h : R) (i : nat) :
  get_level h = Some i -> 0 <= h -> nth i hb_list 0 <= h.
Proof.
  intros E Hh. split_level h; same_level; cbv [nth hb_list]; lra.
Qed.

Lemma in_layer_at_base (i : nat) :
  (i < 6)%nat ->
  pressure_in_layer i (nth i hb_list 0) = nth i Pb_list 0
  /\ density_in_layer i (nth i hb_list 0) = nth i Db_list 0.
Proof.
  intros Hi. pose proof (get_level_at_base i Hi) as E.
  destruct (evaluators_at_base i E) as (_ & HP & HD).
  rewrite (get_pressure_in_layer _ _ E) in HP.
  rewrite (get_density_in_layer _ _ E) in HD.
  apply Ok_inj, Num_inj in HP. apply Ok_inj, Num_inj in HD. now split.
Qed.

(** X7.  From sea level upwards neither the pressure nor the density exceeds
    the base value of its layer, and so neither exceeds the sea-level value:
    [P <= P_b <= 101325] and [rho <= D_b <= 1.225]. *)
Theorem bounded_by_base_values (h : R) (i : nat) :
  0 <= h -> get_level h = Some i ->
  exists P D : R,
    get_pressure h = Ok (Num P) /\ get_density h = Ok (Num D)
    /\ P <= base_pressure (layer i) <= 101325
    /\ D <= base_density (layer i) <= 1.225.
Proof.
  intros Hh E. pose proof (get_level_lt_6 _ _ E) as Hi.
  exists (pressure_in_layer i h), (density_in_layer i h).
  split; [now apply get_pressure_in_layer|].
  split; [now apply get_density_in_layer|].
  pose proof (base_altitude_le h i E Hh) as Hb.
  destruct (in_layer_at_base i Hi) as (HPb & HDb).
  change (base_pressure (layer i)) with (nth i Pb_list 0).
  change (base_density (layer i)) with (nth i Db_list 0).
  assert (HP : pressure_in_layer i h <= nth i Pb_list 0
               /\ density_in_layer i h <= nth i Db_list 0).
  { destruct Hb as [Hlt | Heq].
    - pose proof (get_level_at_base i Hi) as Eb.
      pose proof (pressure_in_layer_decreasing i _ _ Eb E Hlt).
      pose proof (density_in_layer_decreasing i _ _ Eb E Hlt).
      lra.
    - rewrite <- Heq, HPb, HDb. lra. }
  destruct HP as (HP & HD).
  repeat split; try assumption; clear - Hi;
    case_index i; cbv [nth Pb_list Db_list]; lra.
Qed.

Lemma bounded_by_base_values_witness :
  exists P D : R,
    get_pressure 25000 = Ok (Num P) /\ get_density 25000 = Ok (Num D)
    /\ P <= base_pressure (layer 2) <= 101325
    /\ D <= base_density (layer 2) <= 1.225.
Proof.
  apply (bounded_by_base_values 25000 2).
  - lra.
  - split_level 25000; try lra; assumption.
Defined.

(** X8.  Below sea level, down to [floor_altitude], the troposphere formulas
    are extrapolated: the temperature, the pressure and the density returned
    are at least the sea-level values 288.15, 101325 and 1.225, and strictly
    above them from one metre below sea level on. *)
Theorem below_sea_level (h : R) :
  floor_altitude <= h < 0 ->
  exists T P D : R,
    get_temperature h = Ok (Num T) /\ get_pressure h = Ok (Num P)
    /\ get_density h = Ok (Num D)
    /\ 288.15 <= T /\ 101325 <= P /\ 1.225 <= D
    /\ (h <= -1 -> 288.15 < T /\ 101325 < P /\ 1.225 < D).
Proof.
  intros [_ Hneg].
  assert (E : get_level h = Some 0%nat) by (split_level h; try lra; assumption).
  pose proof (get_level_at_base 0 ltac:(lia)) as E0.
  destruct (in_layer_at_base 0 ltac:(lia)) as (HPb & HDb).
  cbv [nth hb_list Pb_list Db_list] in E0, HPb, HDb.
  pose proof (pressure_in_layer_decreasing 0 h 0 E E0 Hneg) as HP.
  pose proof (density_in_layer_decreasing 0 h 0 E E0 Hneg) as HD.
  exists (temperature (layer 0) h), (pressure_in_layer 0 h),
         (density_in_layer 0 h).
  split; [now apply get_temperature_at|].
  split; [now apply get_pressure_in_layer|].
  split; [now apply get_density_in_layer|].
  split; [eval_tables; lra|]. split; [lra|]. split; [lra|].
  intros _. split; [eval_tables; lra|]. split; lra.
Qed.

Lemma below_sea_level_witness :
  exists T P D : R,
    get_temperature (-100) = Ok (Num T) /\ get_pressure (-100) = Ok (Num P)
    /\ get_density (-100) = Ok (Num D)
    /\ 288.15 <= T /\ 101325 <= P /\ 1.225 <= D
    /\ (-100 <= -1 -> 288.15 < T /\ 101325 < P /\ 1.225 < D).
Proof.
  apply (below_sea_level (-100)). unfold floor_altitude. lra.
Defined.

(** X9.  From [floor_altitude] upwards the temperature falls up to 20000 m,
    rises from 11000 m to 51000 m and falls again from 47000 m on, across
    the seams as well as inside the layers, up to the tolerance: where it
    falls, the higher altitude is at most [tolerance] warmer, and where it
    rises, at most [tolerance] colder. *)
Theorem temperature_trend (h1 h2 T1 T2 : R) :
  floor_altitude <= h1 -> h1 <= h2 ->
  get_temperature h1 = Ok (Num T1) -> get_temperature h2 = Ok (Num T2) ->
  (h2 <= 20000 -> T2 <= T1 + tolerance)
  /\ (11000 <= h1 -> h2 <= 51000 -> T1 <= T2 + tolerance)
  /\ (47000 <= h1 -> T2 <= T1 + tolerance).
Proof.
  intros _ Hle H1 H2.
  destruct (get_temperature_Some _ _ H1) as (x1 & i & [= <-] & E1).
  destruct (get_temperature_Some _ _ H2) as (x2 & j & [= <-] & E2).
  rewrite (get_temperature_value _ _ _ E1 H1).
  rewrite (get_temperature_value _ _ _ E2 H2).
  clear H1 H2. unfold tolerance.
  split_level h1; split_level h2; same_level; try lra; eval_tables;
    repeat split; intros; lra.
Qed.

Lemma temperature_trend_witness : 216.65 <= 288.15 + tolerance.
Proof.
  refine (proj1 (temperature_trend 0 11000 288.15 216.65 _ _ _ _) _).
  - unfold floor_altitude. lra.
  - lra.
  - exact (proj1 (evaluators_at_base 0 (get_level_at_base 0 ltac:(lia)))).
  - exact (proj1 (evaluators_at_base 1 (get_level_at_base 1 ltac:(lia)))).
  - lra.
Defined.

(** X10.  On [0, 71000), in a layer that is not isothermal, the two power
    laws are the barometric formulas in the temperature ratio, within the
    tolerance: with [T] the temperature returned at [h] and [a] the signed
    lapse rate, the pressure returned agrees with
    [P_b * (T/T_b) ^ (-g*M/(R*a))] and the density returned with
    [D_b * (T/T_b) ^ (-g*M/(R*a) - 1)]. *)
Theorem barometric_in_temperature (h : R) (i : nat) :
  0 <= h < 71000 -> get_level h = Some i -> ~ isothermal (layer i) ->
  let a := lapse_rate (layer i) in
  let T_b := base_temperature (layer i) in
  exists T P D : R,
    get_temperature h = Ok (Num T)
    /\ get_pressure h = Ok (Num P)
    /\ get_density h = Ok (Num D)
    /\ within tolerance P
         (base_pressure (layer i)
          * Rpower (T / T_b) (- (9.81 * 0.028964) / (8.314 * a)))
    /\ within tolerance D
         (base_density (layer i)
          * Rpower (T / T_b) (- (9.81 * 0.028964) / (8.314 * a) - 1)).
Proof.
  intros _ E Hiso. cbv zeta.
  pose proof (get_level_lt_6 _ _ E) as Hi.
  pose proof (not_isothermal_Lb i Hiso) as Hnz.
  assert (Hc : g * M / (Rgas * nth i Lb_list 0)
               = - (9.81 * 0.028964) / (8.314 * lapse_rate (layer i))).
  { rewrite lapse_rate_layer. rewrite Lb_list_opp_a_list in *.
    unfold g, M, Rgas. field. lra. }
  exists (temperature (layer i) h).
  eexists. eexists.
  split; [now apply get_temperature_at|].
  split; [exact (get_pressure_power_at h i E Hnz)|].
  split; [exact (get_density_power_at h i E Hnz)|].
  unfold polytropic_factor.
  change (base_altitude (layer i)) with (nth i hb_list 0).
  change (base_temperature (layer i)) with (nth i Tb_list 0).
  rewrite (power_base_temperature h i Hi), Hc.
  split; apply within_refl; unfold tolerance; lra.
Qed.

Lemma barometric_in_temperature_witness :
  exists T P D : R,
    get_temperature 5000 = Ok (Num T)
    /\ get_pressure 5000 = Ok (Num P)
    /\ get_density 5000 = Ok (Num D)
    /\ within tolerance P
         (base_pressure (layer 0)
          * Rpower (T / base_temperature (layer 0))
              (- (9.81 * 0.028964) / (8.314 * lapse_rate (layer 0))))
    /\ within tolerance D
         (base_density (layer 0)
          * Rpower (T / base_temperature (layer 0))
              (- (9.81 * 0.028964) / (8.314 * lapse_rate (layer 0)) - 1)).
Proof.
  apply (barometric_in_temperature 5000 0).
  - lra.
  - split_level 5000; try lra; assumption.
  - eval_tables. lra.
Defined.

(* ================================================================== *)
(** ** The sampling of the script *)

Lemma comprehension_Ok {A B : Type} (f : A -> result B) (l : list A) :
  Forall (fun x => exists y, f x = Ok y) l ->
  exists ys : list B,
    comprehension f l = Ok ys /\ Forall2 (fun x y => f x = Ok y) l ys.
Proof.
  induction l as [|x l IH]; intros Hall.
  - exists []. split; [reflexivity | constructor].
  - inversion Hall as [|? ? (y & Hy) Hl]; subst.
    destruct (IH Hl) as (ys & Hys & H2).
    exists (y :: ys). split.
    + cbn. rewrite Hy. cbn. rewrite Hys. reflexivity.
    + now constructor.
Qed.

Lemma comprehension_Raise {A B : Type} (f : A -> result B) (e : exn)
      (l : list A) :
  (forall x : A, (exists y, f x = Ok y) \/ f x = Raise e) ->
  Exists (fun x => f x = Raise e) l ->
  comprehension f l = Raise e.
Proof.
  intros Hf. induction l as [|x l IH]; intros Hex.
  - inversion Hex.
  - cbn. destruct (Hf x) as [(y & Hy) | Hr].
    + rewrite Hy. cbn. rewrite IH; [reflexivity|].
      inversion Hex as [? ? Hx | ? ? Hl]; subst; [congruence | exact Hl].
    + rewrite Hr. reflexivity.
Qed.

Lemma altitude_level (alt : Z) :
  ((alt < 71000)%Z -> exists i : nat, get_level (altitude alt) = Some i)
  /\ ((71000 <= alt)%Z -> get_level (altitude alt) = None).
Proof.
  unfold altitude. split; intros H.
  - apply IZR_lt in H. split_level (IZR alt); try lra; eauto.
  - apply IZR_le in H. split_level (IZR alt); try lra; assumption.
Qed.

Lemma altitude_evaluated (alt : Z) :
  (alt < 71000)%Z ->
  (exists T, get_temperature (altitude alt) = Ok T)
  /\ (exists P, get_pressure (altitude alt) = Ok P)
  /\ (exists D, get_density (altitude alt) = Ok D).
Proof.
  intros H. destruct (proj1 (altitude_level alt) H) as (i & E).
  unfold altitude in *. repeat split; eexists.
  - exact (get_temperature_at _ _ E).
  - exact (get_pressure_in_layer _ _ E).
  - exact (get_density_in_layer _ _ E).
Qed.

Lemma altitude_Ok_or_TypeError (alt : Z) :
  ((exists T, get_temperature (altitude alt) = Ok T)
   \/ get_temperature (altitude alt) = Raise TypeError)
  /\ ((exists P, get_pressure (altitude alt) = Ok P)
      \/ get_pressure (altitude alt) = Raise TypeError)
  /\ ((exists D, get_density (altitude alt) = Ok D)
      \/ get_density (altitude alt) = Raise TypeError).
Proof.
  destruct (Z_lt_le_dec alt 71000) as [Hlt | Hge].
  - destruct (altitude_evaluated alt Hlt) as (HT & HP & HD). auto.
  - pose proof (proj2 (altitude_level alt) Hge) as E.
    destruct (no_level_raises _ E) as (HT & HP & HD). auto.
Qed.

(** X11.  A list comprehension over integer altitudes not below
    [floor_altitude], as the script writes them, returns one value per
    altitude when every altitude is below 71000; when some altitude is 71000
    or more, each of the three comprehensions raises [TypeError] and no list
    is produced. *)
Theorem sampling (alts : list Z) :
  Forall (fun alt => (-11000 <= alt)%Z) alts ->
  (Forall (fun alt => (alt < 71000)%Z) alts ->
   exists Ts Ps Ds : list float,
     comprehension (fun alt => get_temperature (altitude alt)) alts = Ok Ts
     /\ comprehension (fun alt => get_pressure (altitude alt)) alts = Ok Ps
     /\ comprehension (fun alt => get_density (altitude alt)) alts = Ok Ds
     /\ Forall2 (fun alt T => get_temperature (altitude alt) = Ok T) alts Ts
     /\ Forall2 (fun alt P => get_pressure (altitude alt) = Ok P) alts Ps
     /\ Forall2 (fun alt D => get_density (altitude alt) = Ok D) alts Ds
     /\ List.length Ts = List.length alts /\ List.length Ps = List.length alts
     /\ List.length Ds = List.length alts)
  /\ (Exists (fun alt => (71000 <= alt)%Z) alts ->
      comprehension (fun alt => get_temperature (altitude alt)) alts
      = Raise TypeError
      /\ comprehension (fun alt => get_pressure (altitude alt)) alts
         = Raise TypeError
      /\ comprehension (fun alt => get_density (altitude alt)) alts
         = Raise TypeError).
Proof.
  intros _. split.
  - intros Hall.
    destruct (comprehension_Ok (fun alt => get_temperature (altitude alt)) alts)
      as (Ts & HTs & FT).
    { eapply Forall_impl; [|exact Hall]. intros a Ha.
      apply (altitude_evaluated a Ha). }
    destruct (comprehension_Ok (fun alt => get_pressure (altitude alt)) alts)
      as (Ps & HPs & FP).
    { eapply Forall_impl; [|exact Hall]. intros a Ha.
      apply (altitude_evaluated a Ha). }
    destruct (comprehension_Ok (fun alt => get_density (altitude alt)) alts)
      as (Ds & HDs & FD).
    { eapply Forall_impl; [|exact Hall]. intros a Ha.
      apply (altitude_evaluated a Ha). }
    exists Ts, Ps, Ds.
    pose proof (Forall2_length FT). pose proof (Forall2_length FP).
    pose proof (Forall2_length FD).
    repeat split; auto.
  - intros Hex.
    assert (Hex' : forall f : Z -> result float,
               (forall alt, (71000 <= alt)%Z -> f alt = Raise TypeError) ->
               Exists (fun alt => f alt = Raise TypeError) alts).
    { intros f Hf. eapply Exists_impl; [|exact Hex]. intros a Ha. now apply Hf. }
    repeat split; apply comprehension_Raise;
      try (intros alt; apply (altitude_Ok_or_TypeError alt));
      apply Hex'; intros alt Ha;
      apply (no_level_raises _ (proj2 (altitude_level alt) Ha)).
Qed.

Lemma sampling_witness :
  comprehension (fun alt => get_pressure (altitude alt))
    [0; 35000; 71000; 100]%Z
  = Raise TypeError.
Proof.
  apply (sampling [0; 35000; 71000; 100]%Z).
  - repeat constructor; lia.
  - right. right. left. lia.
Defined.

Lemma arange_In (start stop step x : Z) :
  (0 < step)%Z -> In x (arange start stop step) ->
  (start <= x < stop)%Z /\ exists k : nat, x = (start + Z.of_nat k * step)%Z.
Proof.
  intros Hs Hin. unfold arange in Hin.
  apply in_map_iff in Hin. destruct Hin as (k & <- & Hk).
  apply in_seq in Hk. split; [|now exists k].
  set (n := ((stop - start + step - 1) / step)%Z) in *.
  assert (Hn : (Z.of_nat k < n)%Z) by lia.
  pose proof (Z.mul_div_le (stop - start + step - 1) step Hs) as Hq.
  fold n in Hq. nia.
Qed.

(** X12.  The script's sampling never raises.  The altitudes are the 401
    integers 0, 100, ..., 40000; each of the three comprehensions returns 401
    values, the [k]-th being the evaluator's result at [100*k]; and every
    sample is classified into one of the first four layers, so the
    mesosphere and mesopause branches are not reached. *)
Theorem main_sampling :
  exists Ts Ps Ds : list float,
    main = Ok (arange 0 40001 100, Ts, Ps, Ds)
    /\ arange 0 40001 100 = map (fun k => (100 * Z.of_nat k)%Z) (seq 0 401)
    /\ List.length Ts = 401%nat /\ List.length Ps = 401%nat /\ List.length Ds = 401%nat
    /\ Forall2 (fun alt T => get_temperature (altitude alt) = Ok T)
         (arange 0 40001 100) Ts
    /\ Forall2 (fun alt P => get_pressure (altitude alt) = Ok P)
         (arange 0 40001 100) Ps
    /\ Forall2 (fun alt D => get_density (altitude alt) = Ok D)
         (arange 0 40001 100) Ds
    /\ Forall (fun alt => exists i : nat,
                 get_level (altitude alt) = Some i /\ (i <= 3)%nat)
         (arange 0 40001 100).
Proof.
  assert (Hin : forall alt, In alt (arange 0 40001 100) -> (0 <= alt < 40001)%Z).
  { intros alt Ha. now apply (arange_In 0 40001 100 alt). }
  assert (Hall : Forall (fun alt => (alt < 71000)%Z) (arange 0 40001 100)).
  { apply Forall_forall. intros alt Ha. specialize (Hin alt Ha). lia. }
  assert (Hlen : List.length (arange 0 40001 100) = 401%nat).
  { unfold arange. rewrite List.length_map, List.length_seq. reflexivity. }
  destruct (comprehension_Ok (fun alt => get_temperature (altitude alt))
              (arange 0 40001 100))
    as (Ts & HTs & FT).
  { eapply Forall_impl; [|exact Hall]. intros a Ha.
    apply (altitude_evaluated a Ha). }
  destruct (comprehension_Ok (fun alt => get_pressure (altitude alt))
              (arange 0 40001 100))
    as (Ps & HPs & FP).
  { eapply Forall_impl; [|exact Hall]. intros a Ha.
    apply (altitude_evaluated a Ha). }
  destruct (comprehension_Ok (fun alt => get_density (altitude alt))
              (arange 0 40001 100))
    as (Ds & HDs & FD).
  { eapply Forall_impl; [|exact Hall]. intros a Ha.
    apply (altitude_evaluated a Ha). }
  exists Ts, Ps, Ds.
  split. { unfold main. rewrite HTs. cbn [bind]. rewrite HPs. cbn [bind].
           rewrite HDs. reflexivity. }
  split. { unfold arange. apply map_ext. intros k. lia. }
  pose proof (Forall2_length FT). pose proof (Forall2_length FP).
  pose proof (Forall2_length FD).
  repeat split; try congruence; try assumption.
  apply Forall_forall. intros alt Ha. specialize (Hin alt Ha).
  unfold altitude.
  assert (0 <= IZR alt < 40001).
  { split; [apply (IZR_le 0) | apply (IZR_lt alt 40001)]; lia. }
  split_level (IZR alt); try lra; eexists; (split; [eassumption | lia]).
Qed.
